(** * outline/parse.go: the tunnel-configuration normalizer

    A shallow embedding of [doParseTunnelConfig] (client/go/outline/parse.go).

    The function is straight-line control flow around five library or
    sibling-package calls: [strings.TrimSpace], [yaml.Unmarshal] (at two target
    types), [yaml.Marshal], [NewClient] and [json.Marshal].  None of them is
    defined in parse.go, so they are collected in the class [Collaborators] and
    every theorem holds for all of their implementations.  The embedding keeps a
    log of the collaborator calls next to the returned envelope, so that "the
    text handed to NewClient" and "the parser never ran" are statements about
    the run rather than about the text of the function. *)

From stdpp Require Import base strings gmap list.


(** ** Go values *)

(** A Go [error], represented by the text its [Error()] method yields: that
    text is all the [%s] and [%v] verbs of [fmt.Sprintf] observe. *)
Definition error : Type := string.

(** The [(value, err)] pair a fallible Go call returns. *)
Inductive result (T : Type) : Type :=
| Ok (v : T)
| Err (err : error).
Arguments Ok {T} v.
Arguments Err {T} err.

(** [strings.HasPrefix]: [len(s) >= len(prefix) && s[:len(prefix)] == prefix]. *)
Definition HasPrefix (s prefix : string) : bool :=
  (String.length prefix <=? String.length s)%nat
  && String.eqb (String.substring 0 (String.length prefix) s) prefix.

(** parse.go:41 [hasKey]: the comma-ok form of a map index.  A nil map has no
    keys, like the empty [gmap]. *)
Definition hasKey {K V : Type} `{Countable K} (m : gmap K V) (key : K) : bool :=
  match m !! key with
  | Some _ => true
  | None => false
  end.

(** ** The platform error contract *)

Module platerrors.

(** Modelled from the spec: the declaration of [platerrors.ErrorCode] is
    outside parse.go.  The three codes this file produces are constructors;
    [OtherCode] stands for the rest of the collaborator's taxonomy. *)
Inductive ErrorCode : Type :=
| InternalError
| InvalidConfig
| ProviderError
| OtherCode (name : string).

(** Modelled from the spec: [platerrors.PlatformError], a code, a message and
    an optional mapping from string to arbitrary value ([None] is Go's nil
    map). *)
Record PlatformError {any : Type} : Type := {
  Code : ErrorCode;
  Message : string;
  Details : option (gmap string any)
}.
Arguments PlatformError any : clear implicits.

End platerrors.

(** ** The data of parse.go *)

(** parse.go:29 the anonymous struct behind [parseTunnelConfigRequest.Error]. *)
Module providerError.
Record t : Type := {
  Message : string;
  Details : string
}.
End providerError.

(** parse.go:27 [parseTunnelConfigRequest].  [astNode] is the type of
    [ast.Node] interface values (nil included); [Error] is a pointer, nil when
    the document has no error block. *)
Module parseTunnelConfigRequest.
Record t {astNode : Type} : Type := {
  Transport : astNode;
  Error : option providerError.t
}.
Arguments t astNode : clear implicits.
End parseTunnelConfigRequest.

(** parse.go:36 [tunnelConfigJson]. *)
Module tunnelConfigJson.
Record t : Type := {
  FirstHop : string;
  Transport : string
}.
End tunnelConfigJson.

(** Modelled from the spec: the client handle [NewClient] builds.  Its
    declaration is outside parse.go; the function reads
    [Client.sd.ConnectionProviderInfo.FirstHop] and
    [Client.pl.ConnectionProviderInfo.FirstHop] and nothing else. *)
Module Client.
Record ConnectionProviderInfoT : Type := {
  FirstHop : string
}.
Record Endpoint : Type := {
  ConnectionProviderInfo : ConnectionProviderInfoT
}.
Record t : Type := {
  sd : Endpoint;
  pl : Endpoint
}.
End Client.

(** Modelled from the spec: the outcome of the transport-construction
    collaborator, which "produces a client object ... or fails with a
    structured platform error".  [ClientError] is the case [result.Error != nil]
    of parse.go:112. *)
Inductive NewClientResult (any : Type) : Type :=
| ClientOk (client : Client.t)
| ClientError (e : platerrors.PlatformError any).
Arguments ClientOk {any} client.
Arguments ClientError {any} e.

(** Modelled from the spec: the envelope [InvokeMethodResult].  Its declaration
    is outside parse.go; the struct literals of parse.go set one of the fields
    [Value] (a string) and [Error] (a pointer) and leave the other at its zero
    value. *)
Module InvokeMethodResult.
Record t {any : Type} : Type := {
  Value : string;
  Error : option (platerrors.PlatformError any)
}.
Arguments t any : clear implicits.
End InvokeMethodResult.

(** ** Collaborators *)

(** What parse.go calls and does not define.  [any_of_string] boxes a Go string
    into an interface value, as the map literal of parse.go:87 does. *)
Class Collaborators (any astNode : Type) : Type := {
  any_of_string : string → any;
  TrimSpace : string → string;
  yaml_Unmarshal_map : string → result (gmap string any);
  yaml_Unmarshal_request : string → result (parseTunnelConfigRequest.t astNode);
  yaml_Marshal : astNode → result string;
  NewClient : string → NewClientResult any;
  json_Marshal : tunnelConfigJson.t → result string
}.

(** ** Runs: a call log and early return *)

(** One entry per collaborator call, with the argument it received. *)
Inductive Call (astNode : Type) : Type :=
| CallYamlUnmarshalMap (data : string)
| CallYamlUnmarshalRequest (data : string)
| CallYamlMarshal (node : astNode)
| CallNewClient (transportConfig : string)
| CallJsonMarshal (response : tunnelConfigJson.t).
Arguments CallYamlUnmarshalMap {astNode} data.
Arguments CallYamlUnmarshalRequest {astNode} data.
Arguments CallYamlMarshal {astNode} node.
Arguments CallNewClient {astNode} transportConfig.
Arguments CallJsonMarshal {astNode} response.

(** A block of the function either falls through with a value or executes a
    [return] statement. *)
Inductive Flow (R A : Type) : Type :=
| Continue (a : A)
| Return (r : R).
Arguments Continue {R A} a.
Arguments Return {R A} r.

Definition Traced (any astNode A : Type) : Type :=
  list (Call astNode) * Flow (InvokeMethodResult.t any) A.

Global Instance Traced_ret {any astNode} : MRet (Traced any astNode) :=
  λ A a, ([], Continue a).

Global Instance Traced_bind {any astNode} : MBind (Traced any astNode) :=
  λ A B f m,
    match m with
    | (log, Continue a) => let '(log', flow) := f a in (log ++ log', flow)
    | (log, Return r) => (log, Return r)
    end.

(** Calling a collaborator records the call and yields what it answered. *)
Definition call {any astNode A : Type} (c : Call astNode) (answer : A)
  : Traced any astNode A :=
  ([c], Continue answer).

(** A [return] statement. *)
Definition ret {any astNode A : Type} (r : InvokeMethodResult.t any)
  : Traced any astNode A :=
  ([], Return r).

(** The texts handed to [NewClient] during a run. *)
Definition downstream {astNode : Type} (log : list (Call astNode)) : list string :=
  omap (λ c, match c with CallNewClient text => Some text | _ => None end) log.

(** Whether a call is one of the structured-document (YAML) calls. *)
Definition isYamlCall {astNode : Type} (c : Call astNode) : bool :=
  match c with
  | CallYamlUnmarshalMap _ | CallYamlUnmarshalRequest _ | CallYamlMarshal _ => true
  | CallNewClient _ | CallJsonMarshal _ => false
  end.

(** ** doParseTunnelConfig *)

Section Parse.

Context {any astNode : Type} `{!Collaborators any astNode}.

Local Abbreviation PlatformError := (platerrors.PlatformError any).
Local Abbreviation InvokeMethodResult := (InvokeMethodResult.t any).
Local Abbreviation M := (Traced any astNode).

(** [&InvokeMethodResult{Error: e}]. *)
Definition errorResult (e : PlatformError) : InvokeMethodResult :=
  {| InvokeMethodResult.Value := EmptyString;
     InvokeMethodResult.Error := Some e |}.

(** parse.go:47-109: the value of the local [transportConfigText], or the
    envelope of an early [return].  [input] is already trimmed. *)
Definition transportConfigText (input : string) : M string :=
  if HasPrefix input "ss://" then
    (* Legacy URL format. Input is the transport config. *)
    mret input
  else
    unmarshalled ← call (CallYamlUnmarshalMap input) (yaml_Unmarshal_map input);
    match unmarshalled with
    | Err err =>
        ret (errorResult
               {| platerrors.Code := platerrors.InvalidConfig;
                  platerrors.Message := "failed to parse: " +:+ err;
                  platerrors.Details := None |})
    | Ok yamlValue =>
        if hasKey yamlValue "transport" || hasKey yamlValue "error" then
          (* New format. Parse as tunnel config *)
          unmarshalled ← call (CallYamlUnmarshalRequest input)
                              (yaml_Unmarshal_request input);
          match unmarshalled with
          | Err err =>
              ret (errorResult
                     {| platerrors.Code := platerrors.InvalidConfig;
                        platerrors.Message := "failed to parse: " +:+ err;
                        platerrors.Details := None |})
          | Ok tunnelConfig =>
              (* Process provider error, if present. *)
              match parseTunnelConfigRequest.Error tunnelConfig with
              | Some providerErr =>
                  let platErr :=
                    {| platerrors.Code := platerrors.ProviderError;
                       platerrors.Message := providerError.Message providerErr;
                       platerrors.Details := None |} in
                  let platErr :=
                    if negb (String.eqb (providerError.Details providerErr) EmptyString)
                    then
                      {| platerrors.Code := platerrors.Code platErr;
                         platerrors.Message := platerrors.Message platErr;
                         platerrors.Details :=
                           Some {[ "details" :=
                                     any_of_string (providerError.Details providerErr) ]} |}
                    else platErr in
                  ret (errorResult platErr)
              | None =>
                  (* Extract transport config as an opaque string. *)
                  marshalled ←
                    call (CallYamlMarshal (parseTunnelConfigRequest.Transport tunnelConfig))
                         (yaml_Marshal (parseTunnelConfigRequest.Transport tunnelConfig));
                  match marshalled with
                  | Err err =>
                      ret (errorResult
                             {| platerrors.Code := platerrors.InvalidConfig;
                                platerrors.Message :=
                                  "failed to normalize config: " +:+ err;
                                platerrors.Details := None |})
                  | Ok transportConfigBytes => mret transportConfigBytes
                  end
              end
          end
        else
          (* Legacy JSON format. Input is the transport config. *)
          mret input
    end.

(** parse.go:117 [result.Client.sd.ConnectionProviderInfo.FirstHop]. *)
Definition streamFirstHop (client : Client.t) : string :=
  Client.FirstHop (Client.ConnectionProviderInfo (Client.sd client)).

(** parse.go:118 [result.Client.pl.ConnectionProviderInfo.FirstHop]. *)
Definition packetFirstHop (client : Client.t) : string :=
  Client.FirstHop (Client.ConnectionProviderInfo (Client.pl client)).

(** parse.go:119-122: the response struct before it is serialized. *)
Definition response (transportConfigText streamFirstHop packetFirstHop : string)
  : tunnelConfigJson.t :=
  let response :=
    {| tunnelConfigJson.FirstHop := EmptyString;
       tunnelConfigJson.Transport := transportConfigText |} in
  if String.eqb streamFirstHop packetFirstHop then
    {| tunnelConfigJson.FirstHop := streamFirstHop;
       tunnelConfigJson.Transport := tunnelConfigJson.Transport response |}
  else response.

(** parse.go:46-136, with the log of collaborator calls. *)
Definition doParseTunnelConfig_traced (input : string) : M InvokeMethodResult :=
  let input := TrimSpace input in
  transportConfigText ← transportConfigText input;
  result ← call (CallNewClient transportConfigText) (NewClient transportConfigText);
  match result with
  | ClientError e => ret (errorResult e)
  | ClientOk client =>
      let response :=
        response transportConfigText (streamFirstHop client) (packetFirstHop client) in
      marshalled ← call (CallJsonMarshal response) (json_Marshal response);
      match marshalled with
      | Err err =>
          ret (errorResult
                 {| platerrors.Code := platerrors.InternalError;
                    platerrors.Message :=
                      "failed to serialize JSON response: " +:+ err;
                    platerrors.Details := None |})
      | Ok responseBytes =>
          mret {| InvokeMethodResult.Value := responseBytes;
                  InvokeMethodResult.Error := None |}
      end
  end.

(** The envelope a block ends with, whichever way it ends. *)
Definition returned (flow : Flow InvokeMethodResult InvokeMethodResult)
  : InvokeMethodResult :=
  match flow with
  | Continue r => r
  | Return r => r
  end.

(** parse.go:46 [doParseTunnelConfig]. *)
Definition doParseTunnelConfig (input : string) : InvokeMethodResult :=
  returned (snd (doParseTunnelConfig_traced input)).

(** The collaborator calls [doParseTunnelConfig] makes on [input], in order. *)
Definition calls (input : string) : list (Call astNode) :=
  fst (doParseTunnelConfig_traced input).

End Parse.

(** The responses handed to [json.Marshal] during a run. *)
Definition serialized {astNode : Type} (log : list (Call astNode))
  : list tunnelConfigJson.t :=
  omap (λ c, match c with CallJsonMarshal r => Some r | _ => None end) log.

(** The envelope invariant: one of [Value] and [Error] is set, not both. *)
Definition exactlyOne {any : Type} (r : InvokeMethodResult.t any) : Prop :=
  (InvokeMethodResult.Value r ≠ EmptyString ∧ InvokeMethodResult.Error r = None)
  ∨ (InvokeMethodResult.Value r = EmptyString ∧ InvokeMethodResult.Error r ≠ None).

(** ** A concrete set of collaborators

    Small executable stand-ins, used to run the function on concrete inputs.
    Interface values are strings, a node is the text of its subtree ([None] is
    the nil node), and the parser knows a handful of one-line documents. *)
Module Sample.

Definition isSpace (c : Ascii.ascii) : bool :=
  let n := Ascii.nat_of_ascii c in
  (n =? 9)%nat || (n =? 10)%nat || (n =? 11)%nat || (n =? 12)%nat
  || (n =? 13)%nat || (n =? 32)%nat.

Fixpoint TrimLeft (s : string) : string :=
  match s with
  | String c rest => if isSpace c then TrimLeft rest else s
  | EmptyString => EmptyString
  end.

Definition reverse (s : string) : string :=
  String.string_of_list_ascii (rev (String.list_ascii_of_string s)).

(** Trims the six ASCII white-space characters from both ends. *)
Definition TrimSpace (s : string) : string :=
  reverse (TrimLeft (reverse (TrimLeft s))).

Definition quotaExceeded : providerError.t :=
  {| providerError.Message := "quota exceeded";
     providerError.Details := "daily limit" |}.

Definition outOfService : providerError.t :=
  {| providerError.Message := "out of service";
     providerError.Details := EmptyString |}.

Definition yaml_Unmarshal_map (data : string) : result (gmap string string) :=
  if String.eqb data "{host: x, port: 1}" then
    Ok {[ "host" := "x"; "port" := "1" ]}
  else if String.eqb data "{transport: ss://relay}" then
    Ok {[ "transport" := "ss://relay" ]}
  else if String.eqb data "{transport: tls}" then
    Ok {[ "transport" := "tls" ]}
  else if String.eqb data "{transport: ss://relay, error: {message: quota exceeded, details: daily limit}}" then
    Ok {[ "transport" := "ss://relay"; "error" := "{message: quota exceeded, details: daily limit}" ]}
  else if String.eqb data "{error: {message: out of service}}" then
    Ok {[ "error" := "{message: out of service}" ]}
  else if String.eqb data "just text" then
    Err "string was used where mapping is expected"
  else
    Err "could not find flow mapping end character".

Definition yaml_Unmarshal_request (data : string)
  : result (parseTunnelConfigRequest.t (option string)) :=
  if String.eqb data "{transport: ss://relay}" then
    Ok {| parseTunnelConfigRequest.Transport := Some "ss://relay";
          parseTunnelConfigRequest.Error := None |}
  else if String.eqb data "{transport: tls}" then
    Ok {| parseTunnelConfigRequest.Transport := Some "tls";
          parseTunnelConfigRequest.Error := None |}
  else if String.eqb data "{transport: ss://relay, error: {message: quota exceeded, details: daily limit}}" then
    Ok {| parseTunnelConfigRequest.Transport := Some "ss://relay";
          parseTunnelConfigRequest.Error := Some quotaExceeded |}
  else if String.eqb data "{error: {message: out of service}}" then
    Ok {| parseTunnelConfigRequest.Transport := None;
          parseTunnelConfigRequest.Error := Some outOfService |}
  else
    Err "could not find flow mapping end character".

Definition yaml_Marshal (node : option string) : result string :=
  match node with
  | Some text => Ok text
  | None => Ok "null"
  end.

Definition relay (firstHop : string) : Client.Endpoint :=
  {| Client.ConnectionProviderInfo := {| Client.FirstHop := firstHop |} |}.

(** Accepts [ss://] links only; both paths share the relay. *)
Definition NewClient (transportConfig : string) : NewClientResult string :=
  if HasPrefix transportConfig "ss://" then
    ClientOk {| Client.sd := relay "1.2.3.4:8080"; Client.pl := relay "1.2.3.4:8080" |}
  else
    ClientError
      {| platerrors.Code := platerrors.OtherCode "unsupported";
         platerrors.Message := "unsupported transport";
         platerrors.Details := Some {[ "config" := transportConfig ]} |}.

Definition quote (s : string) : string :=
  String (Ascii.ascii_of_nat 34) (s +:+ String (Ascii.ascii_of_nat 34) EmptyString).

Definition json_Marshal (v : tunnelConfigJson.t) : result string :=
  Ok ("{" +:+ quote "firstHop" +:+ ":" +:+ quote (tunnelConfigJson.FirstHop v)
      +:+ "," +:+ quote "transport" +:+ ":" +:+ quote (tunnelConfigJson.Transport v)
      +:+ "}").

Definition collaborators : Collaborators string (option string) :=
  Build_Collaborators string (option string)
    id TrimSpace yaml_Unmarshal_map yaml_Unmarshal_request yaml_Marshal
    NewClient json_Marshal.

(** [doParseTunnelConfig] and its call log over the sample collaborators. *)
Definition run (input : string) : InvokeMethodResult.t string :=
  @doParseTunnelConfig _ _ collaborators input.

Definition log (input : string) : list (Call (option string)) :=
  @calls _ _ collaborators input.

End Sample.

(** ** Collaborators for the rarer paths

    The sample collaborators with a document whose [error] key holds a plain
    scalar (the typed parse rejects it), one whose [error] key is null (the
    typed parse yields a nil [Error]), and an encoder that always fails. *)
Module Edge.

Definition yaml_Unmarshal_map (data : string) : result (gmap string string) :=
  if String.eqb data "{error: maintenance}" then
    Ok {[ "error" := "maintenance" ]}
  else if String.eqb data "{error: null}" then
    Ok {[ "error" := "null" ]}
  else Sample.yaml_Unmarshal_map data.

Definition yaml_Unmarshal_request (data : string)
  : result (parseTunnelConfigRequest.t (option string)) :=
  if String.eqb data "{error: maintenance}" then
    Err "string was used where mapping is expected"
  else if String.eqb data "{error: null}" then
    Ok {| parseTunnelConfigRequest.Transport := None;
          parseTunnelConfigRequest.Error := None |}
  else Sample.yaml_Unmarshal_request data.

Definition collaborators : Collaborators string (option string) :=
  Build_Collaborators string (option string)
    id Sample.TrimSpace yaml_Unmarshal_map yaml_Unmarshal_request
    Sample.yaml_Marshal Sample.NewClient Sample.json_Marshal.

Definition run (input : string) : InvokeMethodResult.t string :=
  @doParseTunnelConfig _ _ collaborators input.

Definition log (input : string) : list (Call (option string)) :=
  @calls _ _ collaborators input.

Definition failingEncoder (v : tunnelConfigJson.t) : result string :=
  Err "unsupported value".

Definition withFailingEncoder : Collaborators string (option string) :=
  Build_Collaborators string (option string)
    id Sample.TrimSpace yaml_Unmarshal_map yaml_Unmarshal_request
    Sample.yaml_Marshal Sample.NewClient failingEncoder.

End Edge.

(** ** Collaborators that tell the two first hops, layouts and null apart *)

(** A client whose streaming and packet paths go through different relays. *)
Module Split.

Definition NewClient (transportConfig : string) : NewClientResult string :=
  if HasPrefix transportConfig "ss://" then
    ClientOk {| Client.sd := Sample.relay "1.2.3.4:8080";
                Client.pl := Sample.relay "5.6.7.8:9090" |}
  else Sample.NewClient transportConfig.

Definition collaborators : Collaborators string (option string) :=
  Build_Collaborators string (option string)
    id Sample.TrimSpace Sample.yaml_Unmarshal_map Sample.yaml_Unmarshal_request
    Sample.yaml_Marshal NewClient Sample.json_Marshal.

Definition log (input : string) : list (Call (option string)) :=
  @calls _ _ collaborators input.

End Split.

(** A parser whose nodes keep the scalar as it was written, quoting included,
    and a marshaller that writes the node back followed by a line feed.  The
    decoded value of a quoted and of a plain scalar is the same string. *)
Module Layout.

Definition lineFeed : string := String (Ascii.ascii_of_nat 10) EmptyString.

Definition yaml_Unmarshal_map (data : string) : result (gmap string string) :=
  if String.eqb data "{transport: ss://relay}" then
    Ok {[ "transport" := "ss://relay" ]}
  else if String.eqb data "{transport: 'ss://relay'}" then
    Ok {[ "transport" := "ss://relay" ]}
  else Err "could not find flow mapping end character".

Definition yaml_Unmarshal_request (data : string)
  : result (parseTunnelConfigRequest.t (option string)) :=
  if String.eqb data "{transport: ss://relay}" then
    Ok {| parseTunnelConfigRequest.Transport := Some "ss://relay";
          parseTunnelConfigRequest.Error := None |}
  else if String.eqb data "{transport: 'ss://relay'}" then
    Ok {| parseTunnelConfigRequest.Transport := Some "'ss://relay'";
          parseTunnelConfigRequest.Error := None |}
  else Err "could not find flow mapping end character".

Definition yaml_Marshal (node : option string) : result string :=
  match node with
  | Some written => Ok (written +:+ lineFeed)
  | None => Ok ("null" +:+ lineFeed)
  end.

Definition collaborators : Collaborators string (option string) :=
  Build_Collaborators string (option string)
    id Sample.TrimSpace yaml_Unmarshal_map yaml_Unmarshal_request
    yaml_Marshal Sample.NewClient Sample.json_Marshal.

Definition run (input : string) : InvokeMethodResult.t string :=
  @doParseTunnelConfig _ _ collaborators input.

Definition log (input : string) : list (Call (option string)) :=
  @calls _ _ collaborators input.

End Layout.

(** A decoder that accepts a null document into a map: nothing is stored and
    no error is reported, so the map stays nil. *)
Module Nulls.

Definition yaml_Unmarshal_map (data : string) : result (gmap string string) :=
  if String.eqb data "null" then Ok ∅ else Sample.yaml_Unmarshal_map data.

Definition collaborators : Collaborators string (option string) :=
  Build_Collaborators string (option string)
    id Sample.TrimSpace yaml_Unmarshal_map Sample.yaml_Unmarshal_request
    Sample.yaml_Marshal Sample.NewClient Sample.json_Marshal.

Definition run (input : string) : InvokeMethodResult.t string :=
  @doParseTunnelConfig _ _ collaborators input.

Definition log (input : string) : list (Call (option string)) :=
  @calls _ _ collaborators input.

End Nulls.

Section ParseFacts.

Context {any astNode : Type} `{!Collaborators any astNode}.

Lemma HasPrefix_app (s prefix : string) :
  HasPrefix s prefix = true ↔ ∃ rest, s = prefix +:+ rest.
Proof.
  unfold HasPrefix. split.
  - intros [Hlen Heq]%andb_prop. apply String.eqb_eq in Heq.
    revert s Hlen Heq. induction prefix as [|c p IH]; intros s Hlen Heq.
    + by exists s.
    + destruct s as [|d s]; [done|]. simpl in *.
      injection Heq as -> Heq. destruct (IH s Hlen Heq) as [rest ->].
      by exists rest.
  - intros [rest ->]. induction prefix as [|c p IH].
    + by destruct rest.
    + simpl in *. apply andb_prop in IH as [Hlen Heq].
      apply andb_true_intro. split; [done|].
      by rewrite Ascii.eqb_refl.
Qed.


Local Abbreviation PlatformError := (platerrors.PlatformError any).
Local Abbreviation InvokeMethodResult := (InvokeMethodResult.t any).

(** *** The paths through parse.go:47-109 *)

Local Ltac step_block :=
  unfold transportConfigText, call, ret, mbind, mret, Traced_bind, Traced_ret;
  repeat match goal with
         | H : _ = _ |- _ => rewrite H
         end;
  simpl; try done.

Lemma block_url (input : string) :
  HasPrefix input "ss://" = true →
  transportConfigText input = ([], Continue input).
Proof. intros Hss. step_block. Qed.

Lemma block_parse_error (input : string) (err : error) :
  HasPrefix input "ss://" = false →
  yaml_Unmarshal_map input = Err err →
  transportConfigText input =
    ([CallYamlUnmarshalMap input],
     Return (errorResult
               {| platerrors.Code := platerrors.InvalidConfig;
                  platerrors.Message := "failed to parse: " +:+ err;
                  platerrors.Details := None |})).
Proof. intros Hss Hmap. step_block. Qed.

Lemma block_legacy (input : string) (yamlValue : gmap string any) :
  HasPrefix input "ss://" = false →
  yaml_Unmarshal_map input = Ok yamlValue →
  hasKey yamlValue "transport" = false →
  hasKey yamlValue "error" = false →
  transportConfigText input = ([CallYamlUnmarshalMap input], Continue input).
Proof. intros Hss Hmap Ht He. step_block. Qed.

Lemma block_request_error (input : string) (yamlValue : gmap string any)
    (err : error) :
  HasPrefix input "ss://" = false →
  yaml_Unmarshal_map input = Ok yamlValue →
  hasKey yamlValue "transport" || hasKey yamlValue "error" = true →
  yaml_Unmarshal_request input = Err err →
  transportConfigText input =
    ([CallYamlUnmarshalMap input; CallYamlUnmarshalRequest input],
     Return (errorResult
               {| platerrors.Code := platerrors.InvalidConfig;
                  platerrors.Message := "failed to parse: " +:+ err;
                  platerrors.Details := None |})).
Proof. intros Hss Hmap Hkey Hreq. step_block. Qed.

Lemma block_provider_error (input : string) (yamlValue : gmap string any)
    (tunnelConfig : parseTunnelConfigRequest.t astNode)
    (providerErr : providerError.t) :
  HasPrefix input "ss://" = false →
  yaml_Unmarshal_map input = Ok yamlValue →
  hasKey yamlValue "transport" || hasKey yamlValue "error" = true →
  yaml_Unmarshal_request input = Ok tunnelConfig →
  parseTunnelConfigRequest.Error tunnelConfig = Some providerErr →
  transportConfigText input =
    ([CallYamlUnmarshalMap input; CallYamlUnmarshalRequest input],
     Return (errorResult
               {| platerrors.Code := platerrors.ProviderError;
                  platerrors.Message := providerError.Message providerErr;
                  platerrors.Details :=
                    if String.eqb (providerError.Details providerErr) EmptyString
                    then None
                    else Some {[ "details" :=
                                   any_of_string (providerError.Details providerErr) ]}
               |})).
Proof.
  intros Hss Hmap Hkey Hreq Herr. step_block.
  by destruct (String.eqb _ _).
Qed.

Lemma block_transport (input : string) (yamlValue : gmap string any)
    (tunnelConfig : parseTunnelConfigRequest.t astNode) :
  HasPrefix input "ss://" = false →
  yaml_Unmarshal_map input = Ok yamlValue →
  hasKey yamlValue "transport" || hasKey yamlValue "error" = true →
  yaml_Unmarshal_request input = Ok tunnelConfig →
  parseTunnelConfigRequest.Error tunnelConfig = None →
  transportConfigText input =
    ([CallYamlUnmarshalMap input; CallYamlUnmarshalRequest input;
      CallYamlMarshal (parseTunnelConfigRequest.Transport tunnelConfig)],
     match yaml_Marshal (parseTunnelConfigRequest.Transport tunnelConfig) with
     | Ok transportConfigBytes => Continue transportConfigBytes
     | Err err =>
         Return (errorResult
                   {| platerrors.Code := platerrors.InvalidConfig;
                      platerrors.Message := "failed to normalize config: " +:+ err;
                      platerrors.Details := None |})
     end).
Proof.
  intros Hss Hmap Hkey Hreq Herr. step_block.
  by destruct (yaml_Marshal _).
Qed.


(** The first block never reaches [NewClient] or [json.Marshal]. *)
Lemma block_log (input : string) :
  downstream (transportConfigText input).1 = []
  ∧ serialized (transportConfigText input).1 = [].
Proof.
  unfold transportConfigText, call, ret, mbind, mret, Traced_bind, Traced_ret.
  destruct (HasPrefix input "ss://"); [done|].
  destruct (yaml_Unmarshal_map input) as [yamlValue|err]; [|done].
  destruct (hasKey yamlValue "transport" || hasKey yamlValue "error"); [|done].
  destruct (yaml_Unmarshal_request input) as [tunnelConfig|err]; [|done].
  destruct (parseTunnelConfigRequest.Error tunnelConfig); [done|].
  by destruct (yaml_Marshal _).
Qed.

(** *** The whole function, by the way its first block ends *)

Lemma run_return (input : string) (log : list (Call astNode))
    (r : InvokeMethodResult) :
  transportConfigText (TrimSpace input) = (log, Return r) →
  calls input = log ∧ doParseTunnelConfig input = r.
Proof.
  intros Hblock.
  unfold calls, doParseTunnelConfig, doParseTunnelConfig_traced.
  unfold mbind at 1 3, Traced_bind. by rewrite Hblock.
Qed.

Lemma run_client_error (input : string) (log : list (Call astNode))
    (text : string) (e : PlatformError) :
  transportConfigText (TrimSpace input) = (log, Continue text) →
  NewClient text = ClientError e →
  calls input = log ++ [CallNewClient text]
  ∧ doParseTunnelConfig input = errorResult e.
Proof.
  intros Hblock Hclient.
  unfold calls, doParseTunnelConfig, doParseTunnelConfig_traced.
  unfold call, ret, mbind, mret, Traced_bind, Traced_ret.
  by rewrite Hblock, Hclient.
Qed.

Lemma run_client_ok (input : string) (log : list (Call astNode))
    (text : string) (client : Client.t) :
  transportConfigText (TrimSpace input) = (log, Continue text) →
  NewClient text = ClientOk client →
  let resp := response text (streamFirstHop client) (packetFirstHop client) in
  calls input = log ++ [CallNewClient text; CallJsonMarshal resp]
  ∧ doParseTunnelConfig input =
      match json_Marshal resp with
      | Ok responseBytes =>
          {| InvokeMethodResult.Value := responseBytes;
             InvokeMethodResult.Error := None |}
      | Err err =>
          errorResult
            {| platerrors.Code := platerrors.InternalError;
               platerrors.Message := "failed to serialize JSON response: " +:+ err;
               platerrors.Details := None |}
      end.
Proof.
  intros Hblock Hclient resp.
  unfold calls, doParseTunnelConfig, doParseTunnelConfig_traced.
  unfold call, ret, mbind, mret, Traced_bind, Traced_ret.
  rewrite Hblock, Hclient. fold resp.
  by destruct (json_Marshal resp).
Qed.

(** [NewClient] is called at most once, with the text the first block
    produced. *)
Lemma downstream_inv_continue (input : string) (log : list (Call astNode))
    (text : string) :
  transportConfigText (TrimSpace input) = (log, Continue text) →
  downstream (calls input) = [text].
Proof.
  intros Hblock.
  assert (downstream log = []) as Hlog.
  { pose proof (block_log (TrimSpace input)) as [Hd _].
    by rewrite Hblock in Hd. }
  unfold downstream in *.
  destruct (NewClient text) as [client|e] eqn:Hclient.
  - destruct (run_client_ok _ _ _ _ Hblock Hclient) as [-> _].
    by rewrite omap_app, Hlog.
  - destruct (run_client_error _ _ _ _ Hblock Hclient) as [-> _].
    by rewrite omap_app, Hlog.
Qed.

Lemma downstream_inv (input text : string) :
  text ∈ downstream (calls input) →
  ∃ log, transportConfigText (TrimSpace input) = (log, Continue text).
Proof.
  intros Hin.
  destruct (transportConfigText (TrimSpace input)) as [log [text'|r]] eqn:Hblock.
  - rewrite (downstream_inv_continue _ _ _ Hblock) in Hin.
    apply list_elem_of_singleton in Hin as ->. by exists log.
  - destruct (run_return _ _ _ Hblock) as [Hcalls _].
    pose proof (block_log (TrimSpace input)) as [Hd _].
    rewrite Hblock in Hd. simpl in Hd.
    rewrite Hcalls, Hd in Hin. by apply not_elem_of_nil in Hin.
Qed.

(** Every early [return] of the first block carries an error and no value. *)
Lemma block_return_error (input : string) (log : list (Call astNode))
    (r : InvokeMethodResult) :
  transportConfigText input = (log, Return r) →
  ∃ e, r = errorResult e.
Proof.
  unfold transportConfigText, call, ret, mbind, mret, Traced_bind, Traced_ret.
  destruct (HasPrefix input "ss://"); [done|].
  destruct (yaml_Unmarshal_map input) as [yamlValue|err]; [|intros [= _ <-]; eauto].
  destruct (hasKey yamlValue "transport" || hasKey yamlValue "error"); [|done].
  destruct (yaml_Unmarshal_request input) as [tunnelConfig|err];
    [|intros [= _ <-]; eauto].
  destruct (parseTunnelConfigRequest.Error tunnelConfig);
    [intros [= _ <-]; eauto|].
  destruct (yaml_Marshal _); [done|intros [= _ <-]; eauto].
Qed.

Lemma append_empty (s : string) : s +:+ EmptyString = s.
Proof.
  induction s as [|c s IH]; [done|].
  change (String c (s +:+ EmptyString) = String c s). by rewrite IH.
Qed.

(** The two wordings of [InvalidConfig] never coincide. *)
Lemma wording_distinct (err err' : error) :
  "failed to normalize config: " +:+ err ≠ "failed to parse: " +:+ err'.
Proof. simpl. intros [=]. Qed.

(** What the tail of the run (parse.go:111-135) adds to the log. *)
Lemma run_continue_calls (input : string) (log : list (Call astNode))
    (text : string) :
  transportConfigText (TrimSpace input) = (log, Continue text) →
  downstream (calls input) = [text]
  ∧ ∃ rest, calls input = log ++ CallNewClient text :: rest
            ∧ Forall (λ c, isYamlCall c = false) rest.
Proof.
  intros Hblock. split.
  - apply downstream_inv_continue with log. done.
  - destruct (NewClient text) as [client|e] eqn:Hclient.
    + destruct (run_client_ok _ _ _ _ Hblock Hclient) as [-> _].
      eexists. split; [done|]. by repeat constructor.
    + destruct (run_client_error _ _ _ _ Hblock Hclient) as [-> _].
      by exists [].
Qed.

(** *** Properties of [doParseTunnelConfig] *)

(** C2.  When the trimmed input starts with [ss://] (it is [ss://] followed by
    some [rest]), the trimmed input itself, byte for byte, is the one text
    handed to [NewClient], and the run makes no structured-document call at
    all: neither [yaml.Unmarshal] nor [yaml.Marshal] appears in its call
    log. *)
Theorem url_passed_unchanged (input rest : string) :
  TrimSpace input = "ss://" +:+ rest →
  downstream (calls input) = [TrimSpace input]
  ∧ Forall (λ c, isYamlCall c = false) (calls input).
Proof.
  intros Hss.
  assert (HasPrefix (TrimSpace input) "ss://" = true) as Hprefix
    by (apply HasPrefix_app; by exists rest).
  pose proof (block_url _ Hprefix) as Hblock.
  destruct (run_continue_calls _ _ _ Hblock) as (Hdown & tail & Hcalls & Htail).
  split; [done|]. rewrite Hcalls. by constructor.
Qed.

(** C3.  When the trimmed input does not start with [ss://] and the probe
    parse yields a document with neither a top-level [transport] nor a
    top-level [error] key, the text handed to [NewClient] is the input text
    itself (the variable [input], trimmed at parse.go:49; the argument as
    given when it has no surrounding white space), whatever document the probe
    produced; the probe is the only structured-document call of the run, so
    nothing is ever re-serialized. *)
Theorem legacy_config_passed_verbatim (input : string)
    (yamlValue : gmap string any) :
  HasPrefix (TrimSpace input) "ss://" = false →
  yaml_Unmarshal_map (TrimSpace input) = Ok yamlValue →
  hasKey yamlValue "transport" = false →
  hasKey yamlValue "error" = false →
  downstream (calls input) = [TrimSpace input]
  ∧ (TrimSpace input = input → downstream (calls input) = [input])
  ∧ ∃ rest, calls input =
              CallYamlUnmarshalMap (TrimSpace input)
                :: CallNewClient (TrimSpace input) :: rest
            ∧ Forall (λ c, isYamlCall c = false) rest.
Proof.
  intros Hss Hmap Ht He. pose proof (block_legacy _ _ Hss Hmap Ht He) as Hblock.
  destruct (run_continue_calls _ _ _ Hblock) as (Hdown & rest & Hcalls & Hrest).
  split; [done|]. split; [intros Hsame; by rewrite Hsame in Hdown|]. by exists rest.
Qed.

(** C5.  When the trimmed input does not start with [ss://] and the generic
    structured-document parse fails with description [err], the function
    returns (it is a total function, so there is no crash) the envelope with
    an empty [Value] and an [Error] of code [InvalidConfig] and message
    ["failed to parse: " ++ err], which embeds [err]; the code is not
    [ProviderError]. *)
Theorem parse_failure_invalid_config (input : string) (err : error) :
  HasPrefix (TrimSpace input) "ss://" = false →
  yaml_Unmarshal_map (TrimSpace input) = Err err →
  ∃ e, doParseTunnelConfig input =
         {| InvokeMethodResult.Value := EmptyString;
            InvokeMethodResult.Error := Some e |}
       ∧ platerrors.Code e = platerrors.InvalidConfig
       ∧ platerrors.Code e ≠ platerrors.ProviderError
       ∧ platerrors.Message e = "failed to parse: " +:+ err
       ∧ ∃ before after, platerrors.Message e = before +:+ err +:+ after.
Proof.
  intros Hss Hmap.
  destruct (run_return _ _ _ (block_parse_error _ _ Hss Hmap)) as [_ ->].
  eexists. split; [done|]. simpl. repeat split; [done|].
  exists "failed to parse: ", EmptyString.
  by rewrite append_empty.
Qed.


(** C4.  When the typed projection of a structured document (the trimmed input
    does not start with [ss://] and the probe found a [transport] or an
    [error] key) has a non-nil [Error], the returned envelope has an empty
    [Value] and an [Error] with code [ProviderError] and message
    [Error.Message]; a non-empty [Error.Details] is attached under the key
    [details].  The [Transport] field of the projection is arbitrary here and
    plays no part: the run stops after the two parses, without [yaml.Marshal]
    or [NewClient]. *)
Theorem provider_error_reported (input : string) (yamlValue : gmap string any)
    (tunnelConfig : parseTunnelConfigRequest.t astNode)
    (providerErr : providerError.t) :
  HasPrefix (TrimSpace input) "ss://" = false →
  yaml_Unmarshal_map (TrimSpace input) = Ok yamlValue →
  hasKey yamlValue "transport" || hasKey yamlValue "error" = true →
  yaml_Unmarshal_request (TrimSpace input) = Ok tunnelConfig →
  parseTunnelConfigRequest.Error tunnelConfig = Some providerErr →
  (∃ e, doParseTunnelConfig input =
          {| InvokeMethodResult.Value := EmptyString;
             InvokeMethodResult.Error := Some e |}
        ∧ platerrors.Code e = platerrors.ProviderError
        ∧ platerrors.Message e = providerError.Message providerErr
        ∧ (providerError.Details providerErr ≠ EmptyString →
           platerrors.Details e =
             Some {[ "details" := any_of_string (providerError.Details providerErr) ]}))
  ∧ calls input = [CallYamlUnmarshalMap (TrimSpace input);
                   CallYamlUnmarshalRequest (TrimSpace input)].
Proof.
  intros Hss Hmap Hkey Hreq Herr.
  destruct (run_return _ _ _ (block_provider_error _ _ _ _ Hss Hmap Hkey Hreq Herr))
    as [-> ->].
  split; [|done]. eexists. split; [done|]. simpl. repeat split.
  intros Hne. apply String.eqb_neq in Hne. by rewrite Hne.
Qed.

(** C10.  For a present error object, the [Details] mapping of the resulting
    [ProviderError] is nil when [Error.Details] is the empty string, and is
    the one-entry mapping [details ↦ Error.Details] otherwise; so a [details]
    entry exists exactly when [Error.Details] is non-empty. *)
Theorem provider_error_details (input : string) (yamlValue : gmap string any)
    (tunnelConfig : parseTunnelConfigRequest.t astNode)
    (providerErr : providerError.t) :
  HasPrefix (TrimSpace input) "ss://" = false →
  yaml_Unmarshal_map (TrimSpace input) = Ok yamlValue →
  hasKey yamlValue "transport" || hasKey yamlValue "error" = true →
  yaml_Unmarshal_request (TrimSpace input) = Ok tunnelConfig →
  parseTunnelConfigRequest.Error tunnelConfig = Some providerErr →
  ∃ e, InvokeMethodResult.Error (doParseTunnelConfig input) = Some e
       ∧ platerrors.Code e = platerrors.ProviderError
       ∧ (providerError.Details providerErr = EmptyString →
          platerrors.Details e = None)
       ∧ (providerError.Details providerErr ≠ EmptyString →
          platerrors.Details e =
            Some {[ "details" := any_of_string (providerError.Details providerErr) ]})
       ∧ ((∃ m, platerrors.Details e = Some m ∧ is_Some (m !! "details"))
          ↔ providerError.Details providerErr ≠ EmptyString).
Proof.
  intros Hss Hmap Hkey Hreq Herr.
  destruct (run_return _ _ _ (block_provider_error _ _ _ _ Hss Hmap Hkey Hreq Herr))
    as [_ ->].
  eexists. split; [done|]. simpl.
  destruct (String.eqb_spec (providerError.Details providerErr) EmptyString)
    as [Heq|Hne].
  - repeat split; try done. intros (m & [=] & _).
  - repeat split; try done. intros _. eexists. split; [done|].
    by rewrite lookup_singleton_eq.
Qed.


(** C6.  For a structured document with a top-level [transport] key whose
    typed projection has no error object, the text handed to [NewClient] is
    exactly what [yaml.Marshal] returns for the [Transport] node of the typed
    projection: parse.go passes that output on untouched, right after the two
    parses and the marshal call, and adds no canonicalisation of its own.
    When the re-serialization fails with [err] the returned envelope has an
    empty [Value] and the [InvalidConfig] error with message
    ["failed to normalize config: " ++ err], which is never a parse-failure
    message, and [NewClient] is not called. *)
Theorem transport_reserialized (input : string) (yamlValue : gmap string any)
    (tunnelConfig : parseTunnelConfigRequest.t astNode) :
  HasPrefix (TrimSpace input) "ss://" = false →
  yaml_Unmarshal_map (TrimSpace input) = Ok yamlValue →
  hasKey yamlValue "transport" = true →
  yaml_Unmarshal_request (TrimSpace input) = Ok tunnelConfig →
  parseTunnelConfigRequest.Error tunnelConfig = None →
  (∀ text,
     yaml_Marshal (parseTunnelConfigRequest.Transport tunnelConfig) = Ok text →
     downstream (calls input) = [text]
     ∧ ∃ rest,
         calls input =
           CallYamlUnmarshalMap (TrimSpace input)
             :: CallYamlUnmarshalRequest (TrimSpace input)
             :: CallYamlMarshal (parseTunnelConfigRequest.Transport tunnelConfig)
             :: CallNewClient text :: rest)
  ∧ (∀ err,
       yaml_Marshal (parseTunnelConfigRequest.Transport tunnelConfig) = Err err →
       doParseTunnelConfig input =
         {| InvokeMethodResult.Value := EmptyString;
            InvokeMethodResult.Error :=
              Some {| platerrors.Code := platerrors.InvalidConfig;
                      platerrors.Message := "failed to normalize config: " +:+ err;
                      platerrors.Details := None |} |}
       ∧ (∀ err', "failed to normalize config: " +:+ err ≠ "failed to parse: " +:+ err')
       ∧ downstream (calls input) = []).
Proof.
  intros Hss Hmap Hkey Hreq Herr.
  assert (hasKey yamlValue "transport" || hasKey yamlValue "error" = true)
    as Hkeys by by rewrite Hkey.
  pose proof (block_transport _ _ _ Hss Hmap Hkeys Hreq Herr) as Hblock.
  split.
  - intros text Hmarshal. rewrite Hmarshal in Hblock.
    destruct (run_continue_calls _ _ _ Hblock) as (Hdown & rest & Hcalls & _).
    split; [exact Hdown|]. exists rest. by rewrite Hcalls.
  - intros err Hmarshal. rewrite Hmarshal in Hblock.
    destruct (run_return _ _ _ Hblock) as [-> ->].
    split; [done|]. split; [|done]. intros err'. apply wording_distinct.
Qed.

(** C1.  Whenever [NewClient] was called and answered with a client, the
    response struct handed to [json.Marshal] echoes the transport text and has
    [FirstHop] equal to the common first hop when the first hop of the
    streaming path ([Client.sd]) and that of the packet path ([Client.pl]) are
    the same string, and empty when they differ; it is thus always one of the
    two first hops or empty.  That struct is the only one serialized, and its
    serialization is the returned [Value]. *)
Theorem firstHop_reconciled (input text : string) (client : Client.t) :
  text ∈ downstream (calls input) →
  NewClient text = ClientOk client →
  ∃ resp,
    serialized (calls input) = [resp]
    ∧ tunnelConfigJson.Transport resp = text
    ∧ (Client.FirstHop (Client.ConnectionProviderInfo (Client.sd client))
       = Client.FirstHop (Client.ConnectionProviderInfo (Client.pl client)) →
       tunnelConfigJson.FirstHop resp
       = Client.FirstHop (Client.ConnectionProviderInfo (Client.sd client)))
    ∧ (Client.FirstHop (Client.ConnectionProviderInfo (Client.sd client))
       ≠ Client.FirstHop (Client.ConnectionProviderInfo (Client.pl client)) →
       tunnelConfigJson.FirstHop resp = EmptyString)
    ∧ (tunnelConfigJson.FirstHop resp
       = Client.FirstHop (Client.ConnectionProviderInfo (Client.sd client))
       ∨ tunnelConfigJson.FirstHop resp
         = Client.FirstHop (Client.ConnectionProviderInfo (Client.pl client))
       ∨ tunnelConfigJson.FirstHop resp = EmptyString)
    ∧ (∀ responseBytes,
         json_Marshal resp = Ok responseBytes →
         doParseTunnelConfig input =
           {| InvokeMethodResult.Value := responseBytes;
              InvokeMethodResult.Error := None |}).
Proof.
  intros [log Hblock]%downstream_inv Hclient.
  destruct (run_client_ok _ _ _ _ Hblock Hclient) as [Hcalls Hresult].
  exists (response text (streamFirstHop client) (packetFirstHop client)).
  unfold streamFirstHop, packetFirstHop in *.
  split; [|split; [|split; [|split; [|split]]]].
  - rewrite Hcalls. unfold serialized. rewrite omap_app.
    pose proof (block_log (TrimSpace input)) as [_ Hser].
    rewrite Hblock in Hser. unfold serialized in Hser. simpl in Hser.
    by rewrite Hser.
  - unfold response. by destruct (String.eqb _ _).
  - intros Heq. unfold response. apply String.eqb_eq in Heq. by rewrite Heq.
  - intros Hne. unfold response. apply String.eqb_neq in Hne. by rewrite Hne.
  - unfold response. destruct (String.eqb _ _); simpl; auto.
  - intros responseBytes Hjson. by rewrite Hresult, Hjson.
Qed.

(** C7.  Whenever [NewClient] was called and answered with a [PlatformError],
    the envelope returned carries that very error, with its code, message and
    details as they came, and no value. *)
Theorem client_error_forwarded (input text : string) (e : PlatformError) :
  text ∈ downstream (calls input) →
  NewClient text = ClientError e →
  doParseTunnelConfig input =
    {| InvokeMethodResult.Value := EmptyString;
       InvokeMethodResult.Error := Some e |}
  ∧ serialized (calls input) = [].
Proof.
  intros [log Hblock]%downstream_inv Hclient.
  destruct (run_client_error _ _ _ _ Hblock Hclient) as [-> ->].
  split; [done|]. unfold serialized. rewrite omap_app.
  pose proof (block_log (TrimSpace input)) as [_ Hser].
  rewrite Hblock in Hser. unfold serialized in Hser. simpl in Hser.
  by rewrite Hser.
Qed.

(** C8.  For every input the returned envelope has exactly one of [Value] and
    [Error] set: each error return leaves [Value] empty, and the success
    return leaves [Error] nil and sets [Value] to the bytes [json.Marshal]
    produced.  Those bytes are non-empty because [json.Marshal] renders a
    struct as an object in braces; that property of the encoder is the
    hypothesis. *)
Theorem envelope_exactly_one (input : string) :
  (∀ v responseBytes,
     json_Marshal v = Ok responseBytes → responseBytes ≠ EmptyString) →
  exactlyOne (doParseTunnelConfig input).
Proof.
  intros Hjson.
  destruct (transportConfigText (TrimSpace input)) as [log [text|r]] eqn:Hblock.
  - destruct (NewClient text) as [client|e] eqn:Hclient.
    + destruct (run_client_ok _ _ _ _ Hblock Hclient) as [_ ->].
      destruct (json_Marshal _) as [responseBytes|err] eqn:Hmarshal.
      * left. split; [|done]. simpl. by eapply Hjson.
      * by right.
    + destruct (run_client_error _ _ _ _ Hblock Hclient) as [_ ->]. by right.
  - destruct (run_return _ _ _ Hblock) as [_ ->].
    destruct (block_return_error _ _ _ Hblock) as [e ->]. by right.
Qed.

(** *** Further properties: the remaining paths and the run as a whole *)

(** The log of the whole run extends the log of the first block. *)
Lemma calls_extend (input : string) :
  ∃ tail, calls input = (transportConfigText (TrimSpace input)).1 ++ tail
          ∧ Forall (λ c, isYamlCall c = false) tail.
Proof.
  destruct (transportConfigText (TrimSpace input)) as [log [text|r]] eqn:Hblock.
  - destruct (run_continue_calls _ _ _ Hblock) as (_ & rest & -> & Hrest).
    eexists. split; [done|]. by constructor.
  - destruct (run_return _ _ _ Hblock) as [-> _].
    exists []. by rewrite app_nil_r.
Qed.

(** [hasKey] is membership in the domain of the map. *)
Lemma hasKey_dom {K V : Type} `{Countable K} (m : gmap K V) (key : K) :
  hasKey m key = true ↔ key ∈ dom m.
Proof.
  unfold hasKey. rewrite elem_of_dom.
  destruct (m !! key) eqn:Hlookup; split; try done; by intros [? ?].
Qed.

(** X1 (parse.go:71-78).  When the probe found a [transport] or an [error]
    key and the typed parse then fails with [err], the returned envelope has
    an empty [Value] and the [InvalidConfig] error with the same
    ["failed to parse: "] wording as a probe failure and no details; the run
    stops after the two parses, before [yaml.Marshal] and [NewClient]. *)
Theorem request_parse_failure_invalid_config (input : string)
    (yamlValue : gmap string any) (err : error) :
  HasPrefix (TrimSpace input) "ss://" = false →
  yaml_Unmarshal_map (TrimSpace input) = Ok yamlValue →
  hasKey yamlValue "transport" || hasKey yamlValue "error" = true →
  yaml_Unmarshal_request (TrimSpace input) = Err err →
  doParseTunnelConfig input =
    {| InvokeMethodResult.Value := EmptyString;
       InvokeMethodResult.Error :=
         Some {| platerrors.Code := platerrors.InvalidConfig;
                 platerrors.Message := "failed to parse: " +:+ err;
                 platerrors.Details := None |} |}
  ∧ calls input = [CallYamlUnmarshalMap (TrimSpace input);
                   CallYamlUnmarshalRequest (TrimSpace input)].
Proof.
  intros Hss Hmap Hkey Hreq.
  by destruct (run_return _ _ _ (block_request_error _ _ _ Hss Hmap Hkey Hreq))
    as [-> ->].
Qed.

(** X2 (parse.go:123-131).  When [NewClient] was called and answered with a
    client but [json.Marshal] of the response fails with [err], the result is
    the [InternalError] error with message
    ["failed to serialize JSON response: " ++ err], no details and no value. *)
Theorem json_failure_internal_error (input text : string) (client : Client.t)
    (err : error) :
  text ∈ downstream (calls input) →
  NewClient text = ClientOk client →
  json_Marshal (response text (streamFirstHop client) (packetFirstHop client))
    = Err err →
  doParseTunnelConfig input =
    {| InvokeMethodResult.Value := EmptyString;
       InvokeMethodResult.Error :=
         Some {| platerrors.Code := platerrors.InternalError;
                 platerrors.Message := "failed to serialize JSON response: " +:+ err;
                 platerrors.Details := None |} |}.
Proof.
  intros [log Hblock]%downstream_inv Hclient Hjson.
  destruct (run_client_ok _ _ _ _ Hblock Hclient) as [_ ->].
  by rewrite Hjson.
Qed.

(** X3 (parse.go:46-136).  The returned envelope has a nil [Error] exactly
    when [NewClient] was called, answered with a client, and [json.Marshal]
    of the response built from that client succeeded; [Value] is then the
    encoder's output. *)
Theorem success_characterized (input : string) :
  InvokeMethodResult.Error (doParseTunnelConfig input) = None
  ↔ ∃ text client responseBytes,
      downstream (calls input) = [text]
      ∧ NewClient text = ClientOk client
      ∧ json_Marshal (response text (streamFirstHop client) (packetFirstHop client))
        = Ok responseBytes
      ∧ InvokeMethodResult.Value (doParseTunnelConfig input) = responseBytes.
Proof.
  split.
  - intros Hnone.
    destruct (transportConfigText (TrimSpace input)) as [log [text|r]] eqn:Hblock.
    + pose proof (downstream_inv_continue _ _ _ Hblock) as Hdown.
      destruct (NewClient text) as [client|e] eqn:Hclient.
      * destruct (run_client_ok _ _ _ _ Hblock Hclient) as [_ Hrun].
        rewrite Hrun in Hnone |- *.
        destruct (json_Marshal _) as [responseBytes|err] eqn:Hjson; [|done].
        exists text, client, responseBytes. by rewrite Hjson.
      * destruct (run_client_error _ _ _ _ Hblock Hclient) as [_ Hrun].
        by rewrite Hrun in Hnone.
    + destruct (run_return _ _ _ Hblock) as [_ Hrun].
      destruct (block_return_error _ _ _ Hblock) as [e ->].
      by rewrite Hrun in Hnone.
  - intros (text & client & responseBytes & Hdown & Hclient & Hjson & _).
    assert (text ∈ downstream (calls input)) as Hin
      by (rewrite Hdown; apply list_elem_of_here).
    apply downstream_inv in Hin as [log Hblock].
    destruct (run_client_ok _ _ _ _ Hblock Hclient) as [_ ->].
    by rewrite Hjson.
Qed.


(** The calls of the first block, by dialect. *)
Lemma block_shape (input : string) :
  (HasPrefix input "ss://" = true ∧ (transportConfigText input).1 = [])
  ∨ (HasPrefix input "ss://" = false
     ∧ ((transportConfigText input).1 = [CallYamlUnmarshalMap input]
        ∨ (transportConfigText input).1
          = [CallYamlUnmarshalMap input; CallYamlUnmarshalRequest input]
        ∨ ∃ tunnelConfig,
            yaml_Unmarshal_request input = Ok tunnelConfig
            ∧ (transportConfigText input).1
              = [CallYamlUnmarshalMap input; CallYamlUnmarshalRequest input;
                 CallYamlMarshal (parseTunnelConfigRequest.Transport tunnelConfig)])).
Proof.
  unfold transportConfigText, call, ret, mbind, mret, Traced_bind, Traced_ret.
  destruct (HasPrefix input "ss://"); [by left|right; split; [done|]].
  destruct (yaml_Unmarshal_map input) as [yamlValue|err]; [|by left].
  destruct (hasKey yamlValue "transport" || hasKey yamlValue "error"); [|by left].
  destruct (yaml_Unmarshal_request input) as [tunnelConfig|err]; [|by right; left].
  destruct (parseTunnelConfigRequest.Error tunnelConfig); [by right; left|].
  right; right. exists tunnelConfig. split; [done|]. by destruct (yaml_Marshal _).
Qed.

(** In the structured dialect the first block starts with the two parses. *)
Lemma block_structured_log (input : string) (yamlValue : gmap string any) :
  HasPrefix input "ss://" = false →
  yaml_Unmarshal_map input = Ok yamlValue →
  hasKey yamlValue "transport" || hasKey yamlValue "error" = true →
  ∃ rest, (transportConfigText input).1
          = CallYamlUnmarshalMap input :: CallYamlUnmarshalRequest input :: rest.
Proof.
  intros Hss Hmap Hkey.
  unfold transportConfigText, call, ret, mbind, mret, Traced_bind, Traced_ret.
  rewrite Hss, Hmap, Hkey.
  destruct (yaml_Unmarshal_request input) as [tunnelConfig|err]; [|by eexists].
  destruct (parseTunnelConfigRequest.Error tunnelConfig); [by eexists|].
  destruct (yaml_Marshal _); by eexists.
Qed.


(** X5 (parse.go:46-136).  A run is never silent and follows one fixed order:
    first the structured-document calls (none for an [ss://] link; otherwise
    the probe, then possibly the typed parse of the same text, then possibly
    [yaml.Marshal] of the parsed [Transport]), then at most one call to
    [NewClient], then at most one call to [json.Marshal], which never happens
    without the call to [NewClient]. *)
Theorem call_discipline (input : string) :
  calls input ≠ []
  ∧ ∃ pre post,
      calls input = pre ++ post
      ∧ ((HasPrefix (TrimSpace input) "ss://" = true ∧ pre = [])
         ∨ (HasPrefix (TrimSpace input) "ss://" = false
            ∧ (pre = [CallYamlUnmarshalMap (TrimSpace input)]
               ∨ pre = [CallYamlUnmarshalMap (TrimSpace input);
                        CallYamlUnmarshalRequest (TrimSpace input)]
               ∨ ∃ tunnelConfig,
                   yaml_Unmarshal_request (TrimSpace input) = Ok tunnelConfig
                   ∧ pre = [CallYamlUnmarshalMap (TrimSpace input);
                            CallYamlUnmarshalRequest (TrimSpace input);
                            CallYamlMarshal
                              (parseTunnelConfigRequest.Transport tunnelConfig)])))
      ∧ (post = []
         ∨ (∃ text, post = [CallNewClient text])
         ∨ (∃ text resp, post = [CallNewClient text; CallJsonMarshal resp])).
Proof.
  pose proof (block_shape (TrimSpace input)) as Hshape.
  destruct (transportConfigText (TrimSpace input)) as [log [text|r]] eqn:Hblock;
    simpl in Hshape.
  - assert (∃ post, calls input = log ++ post
                    ∧ post ≠ []
                    ∧ ((∃ text, post = [CallNewClient text])
                       ∨ (∃ text resp,
                            post = [CallNewClient text; CallJsonMarshal resp])))
      as (post & Hcalls & Hne & Hpost).
    { destruct (NewClient text) as [client|e] eqn:Hclient.
      - destruct (run_client_ok _ _ _ _ Hblock Hclient) as [-> _].
        eexists. split; [done|]. split; [done|]. right. by do 2 eexists.
      - destruct (run_client_error _ _ _ _ Hblock Hclient) as [-> _].
        eexists. split; [done|]. split; [done|]. left. by eexists. }
    split.
    + rewrite Hcalls. intros [_ ?]%app_eq_nil. done.
    + exists log, post. split; [done|]. split; [done|]. by right.
  - destruct (run_return _ _ _ Hblock) as [Hcalls _].
    split.
    + rewrite Hcalls. intros ->.
      destruct Hshape as [[Hss _]|[_ [?|[?|(? & _ & ?)]]]]; try done.
      by rewrite (block_url _ Hss) in Hblock.
    + exists log, []. rewrite app_nil_r. split; [done|]. split; [done|]. by left.
Qed.

(** X6 (parse.go:68).  For an input that is not an [ss://] link and that the
    probe parsed, the typed parse runs exactly when [transport] or [error] is
    in the domain of the probe's map: the dialect is decided by the presence
    of those two keys, whatever their values and whatever other keys the map
    has. *)
Theorem dialect_by_key_presence (input : string) (yamlValue : gmap string any) :
  HasPrefix (TrimSpace input) "ss://" = false →
  yaml_Unmarshal_map (TrimSpace input) = Ok yamlValue →
  CallYamlUnmarshalRequest (TrimSpace input) ∈ calls input
  ↔ "transport" ∈ dom yamlValue ∨ "error" ∈ dom yamlValue.
Proof.
  intros Hss Hmap. rewrite <- !hasKey_dom.
  destruct (hasKey yamlValue "transport" || hasKey yamlValue "error") eqn:Hkey.
  - split; [intros _; by apply orb_prop|intros _].
    destruct (block_structured_log _ _ Hss Hmap Hkey) as [rest Hlog].
    destruct (calls_extend input) as (tail & -> & _).
    rewrite Hlog. apply elem_of_app. left.
    apply list_elem_of_further, list_elem_of_here.
  - apply orb_false_elim in Hkey as [Ht He].
    split; [|rewrite Ht, He; by intros [?|?]].
    pose proof (block_legacy _ _ Hss Hmap Ht He) as Hblock.
    destruct (run_continue_calls _ _ _ Hblock) as (_ & rest & -> & Hrest).
    intros Hin. simpl in Hin.
    apply elem_of_cons in Hin as [?|Hin]; [done|].
    apply elem_of_cons in Hin as [?|Hin]; [done|].
    rewrite Forall_forall in Hrest. by apply Hrest in Hin.
Qed.

(** X8 (parse.go:117-122).  The reconciliation does not depend on which first
    hop is the streaming one; the response always echoes the transport text;
    and its [FirstHop] is non-empty exactly when the two first hops are the
    same non-empty string, so an empty [FirstHop] is also what two empty
    first hops give. *)
Theorem response_reconciliation (text stream packet : string) :
  response text stream packet = response text packet stream
  ∧ tunnelConfigJson.Transport (response text stream packet) = text
  ∧ (tunnelConfigJson.FirstHop (response text stream packet) ≠ EmptyString
     ↔ stream = packet ∧ stream ≠ EmptyString).
Proof.
  unfold response.
  destruct (String.eqb_spec stream packet) as [->|Hne].
  - rewrite String.eqb_refl. simpl. repeat split; try done. by intros [_ ?].
  - assert (String.eqb packet stream = false) as ->
      by (apply String.eqb_neq; congruence).
    simpl. repeat split; try done. by intros [? _].
Qed.

(** X10 (parse.go:68-104).  An [error] key alone selects the structured
    dialect: when the probe found it and the typed parse yields a nil [Error]
    (a null error block), the run goes on to [yaml.Marshal] of the [Transport]
    field, even with no [transport] key in the document, and [NewClient]
    receives that re-serialization (nothing if it fails), not the input. *)
Theorem null_error_block_structured (input : string)
    (yamlValue : gmap string any)
    (tunnelConfig : parseTunnelConfigRequest.t astNode) :
  HasPrefix (TrimSpace input) "ss://" = false →
  yaml_Unmarshal_map (TrimSpace input) = Ok yamlValue →
  hasKey yamlValue "error" = true →
  yaml_Unmarshal_request (TrimSpace input) = Ok tunnelConfig →
  parseTunnelConfigRequest.Error tunnelConfig = None →
  (∃ rest,
     calls input =
       CallYamlUnmarshalMap (TrimSpace input)
         :: CallYamlUnmarshalRequest (TrimSpace input)
         :: CallYamlMarshal (parseTunnelConfigRequest.Transport tunnelConfig)
         :: rest
     ∧ Forall (λ c, isYamlCall c = false) rest)
  ∧ downstream (calls input) =
      match yaml_Marshal (parseTunnelConfigRequest.Transport tunnelConfig) with
      | Ok text => [text]
      | Err _ => []
      end.
Proof.
  intros Hss Hmap Hkey Hreq Herr.
  assert (hasKey yamlValue "transport" || hasKey yamlValue "error" = true)
    as Hkeys by (rewrite Hkey; apply orb_true_r).
  pose proof (block_transport _ _ _ Hss Hmap Hkeys Hreq Herr) as Hblock.
  destruct (yaml_Marshal _) as [text|err].
  - destruct (run_continue_calls _ _ _ Hblock) as (Hdown & rest & Hcalls & Hrest).
    split; [|exact Hdown]. rewrite Hcalls. eexists. split; [done|].
    by constructor.
  - destruct (run_return _ _ _ Hblock) as [-> _].
    split; [|done]. by exists [].
Qed.

End ParseFacts.

(** ** Concrete runs over the sample collaborators *)

Lemma firstHop_reconciled_witness :
  let client :=
    {| Client.sd := Sample.relay "1.2.3.4:8080";
       Client.pl := Sample.relay "5.6.7.8:9090" |} in
  "ss://example-host-info" ∈ downstream (Split.log "  ss://example-host-info  ")
  ∧ Split.NewClient "ss://example-host-info" = ClientOk client
  ∧ ∃ resp,
      serialized (Split.log "  ss://example-host-info  ") = [resp]
      ∧ tunnelConfigJson.Transport resp = "ss://example-host-info"
      ∧ tunnelConfigJson.FirstHop resp = EmptyString.
Proof.
  intros client.
  assert ("ss://example-host-info"
            ∈ downstream (Split.log "  ss://example-host-info  ")) as Hin
    by (vm_compute; constructor).
  split; [exact Hin|]. split; [reflexivity|].
  destruct (@firstHop_reconciled _ _ Split.collaborators
              "  ss://example-host-info  " "ss://example-host-info" client
              Hin eq_refl)
    as (resp & Hser & Hecho & _ & Hdiffer & _).
  exists resp. split; [exact Hser|]. split; [exact Hecho|].
  apply Hdiffer. discriminate.
Defined.

Lemma url_passed_unchanged_witness :
  Sample.TrimSpace "  ss://example-host-info  " = "ss://" +:+ "example-host-info"
  ∧ downstream (Sample.log "  ss://example-host-info  ")
    = [Sample.TrimSpace "  ss://example-host-info  "]
  ∧ Forall (λ c, isYamlCall c = false) (Sample.log "  ss://example-host-info  ").
Proof.
  split; [reflexivity|].
  exact (@url_passed_unchanged _ _ Sample.collaborators
           "  ss://example-host-info  " "example-host-info" eq_refl).
Defined.

Lemma legacy_config_passed_verbatim_witness :
  HasPrefix (Sample.TrimSpace "{host: x, port: 1}") "ss://" = false
  ∧ Sample.yaml_Unmarshal_map (Sample.TrimSpace "{host: x, port: 1}")
    = Ok {[ "host" := "x"; "port" := "1" ]}
  ∧ downstream (Sample.log "{host: x, port: 1}") = ["{host: x, port: 1}"].
Proof.
  split; [reflexivity|]. split; [reflexivity|].
  exact (proj1 (@legacy_config_passed_verbatim _ _ Sample.collaborators
                  "{host: x, port: 1}" {[ "host" := "x"; "port" := "1" ]}
                  eq_refl eq_refl eq_refl eq_refl)).
Defined.

Lemma provider_error_reported_witness :
  let input :=
    "{transport: ss://relay, error: {message: quota exceeded, details: daily limit}}" in
  Sample.yaml_Unmarshal_request (Sample.TrimSpace input)
  = Ok {| parseTunnelConfigRequest.Transport := Some "ss://relay";
          parseTunnelConfigRequest.Error := Some Sample.quotaExceeded |}
  ∧ Sample.log input = [CallYamlUnmarshalMap input; CallYamlUnmarshalRequest input]
  ∧ ∃ e, Sample.run input
         = {| InvokeMethodResult.Value := EmptyString;
              InvokeMethodResult.Error := Some e |}
         ∧ platerrors.Code e = platerrors.ProviderError
         ∧ platerrors.Message e = "quota exceeded"
         ∧ platerrors.Details e = Some {[ "details" := "daily limit" ]}.
Proof.
  intros input. split; [reflexivity|].
  destruct (@provider_error_reported _ _ Sample.collaborators input
              {[ "transport" := "ss://relay";
                 "error" := "{message: quota exceeded, details: daily limit}" ]}
              {| parseTunnelConfigRequest.Transport := Some "ss://relay";
                 parseTunnelConfigRequest.Error := Some Sample.quotaExceeded |}
              Sample.quotaExceeded eq_refl eq_refl eq_refl eq_refl eq_refl)
    as [(e & Hrun & Hcode & Hmsg & Hdetails) Hcalls].
  split; [exact Hcalls|]. exists e.
  split; [exact Hrun|]. split; [exact Hcode|]. split; [exact Hmsg|].
  apply Hdetails. discriminate.
Defined.

Lemma parse_failure_invalid_config_witness :
  HasPrefix (Sample.TrimSpace "{host: x") "ss://" = false
  ∧ Sample.yaml_Unmarshal_map (Sample.TrimSpace "{host: x")
    = Err "could not find flow mapping end character"
  ∧ ∃ e, Sample.run "{host: x"
         = {| InvokeMethodResult.Value := EmptyString;
              InvokeMethodResult.Error := Some e |}
         ∧ platerrors.Code e = platerrors.InvalidConfig
         ∧ platerrors.Message e
           = "failed to parse: could not find flow mapping end character".
Proof.
  split; [reflexivity|]. split; [reflexivity|].
  destruct (@parse_failure_invalid_config _ _ Sample.collaborators "{host: x"
              "could not find flow mapping end character" eq_refl eq_refl)
    as (e & Hrun & Hcode & _ & Hmsg & _).
  exists e. split; [exact Hrun|]. split; [exact Hcode|]. exact Hmsg.
Defined.

Lemma transport_reserialized_witness :
  Layout.yaml_Unmarshal_request (Sample.TrimSpace "  {transport: 'ss://relay'}")
  = Ok {| parseTunnelConfigRequest.Transport := Some "'ss://relay'";
          parseTunnelConfigRequest.Error := None |}
  ∧ Layout.yaml_Marshal (Some "'ss://relay'")
    = Ok ("'ss://relay'" +:+ Layout.lineFeed)
  ∧ downstream (Layout.log "  {transport: 'ss://relay'}")
    = ["'ss://relay'" +:+ Layout.lineFeed].
Proof.
  split; [reflexivity|]. split; [reflexivity|].
  exact (proj1 (proj1 (@transport_reserialized _ _ Layout.collaborators
                         "  {transport: 'ss://relay'}"
                         {[ "transport" := "ss://relay" ]}
                         {| parseTunnelConfigRequest.Transport := Some "'ss://relay'";
                            parseTunnelConfigRequest.Error := None |}
                         eq_refl eq_refl eq_refl eq_refl eq_refl)
                      ("'ss://relay'" +:+ Layout.lineFeed) eq_refl)).
Defined.

(** Two documents with the same transport data, one writing the scalar plain
    and one in single quotes: the probe decodes both to the same map, neither
    has an error block, and yet [NewClient] receives two different texts.
    The text handed downstream follows the node, it is not a canonical form
    of the data. *)
Lemma transport_text_not_canonical :
  Layout.yaml_Unmarshal_map "{transport: ss://relay}"
  = Layout.yaml_Unmarshal_map "{transport: 'ss://relay'}"
  ∧ Layout.yaml_Unmarshal_request "{transport: ss://relay}"
    = Ok {| parseTunnelConfigRequest.Transport := Some "ss://relay";
            parseTunnelConfigRequest.Error := None |}
  ∧ Layout.yaml_Unmarshal_request "{transport: 'ss://relay'}"
    = Ok {| parseTunnelConfigRequest.Transport := Some "'ss://relay'";
            parseTunnelConfigRequest.Error := None |}
  ∧ downstream (Layout.log "{transport: ss://relay}")
    = ["ss://relay" +:+ Layout.lineFeed]
  ∧ downstream (Layout.log "{transport: 'ss://relay'}")
    = ["'ss://relay'" +:+ Layout.lineFeed]
  ∧ downstream (Layout.log "{transport: ss://relay}")
    ≠ downstream (Layout.log "{transport: 'ss://relay'}").
Proof.
  split; [reflexivity|]. split; [reflexivity|]. split; [reflexivity|].
  split; [reflexivity|]. split; [reflexivity|].
  vm_compute. discriminate.
Qed.

Lemma client_error_forwarded_witness :
  let e :=
    {| platerrors.Code := platerrors.OtherCode "unsupported";
       platerrors.Message := "unsupported transport";
       platerrors.Details := Some {[ "config" := "{host: x, port: 1}" ]} |} in
  "{host: x, port: 1}" ∈ downstream (Sample.log "{host: x, port: 1}")
  ∧ Sample.NewClient "{host: x, port: 1}" = ClientError e
  ∧ Sample.run "{host: x, port: 1}"
    = {| InvokeMethodResult.Value := EmptyString;
         InvokeMethodResult.Error := Some e |}.
Proof.
  intros e.
  assert ("{host: x, port: 1}" ∈ downstream (Sample.log "{host: x, port: 1}"))
    as Hin by (vm_compute; constructor).
  split; [exact Hin|]. split; [reflexivity|].
  exact (proj1 (@client_error_forwarded _ _ Sample.collaborators
                  "{host: x, port: 1}" "{host: x, port: 1}" e Hin eq_refl)).
Defined.

Lemma envelope_exactly_one_witness :
  (∀ v responseBytes,
     Sample.json_Marshal v = Ok responseBytes → responseBytes ≠ EmptyString)
  ∧ exactlyOne (Sample.run "ss://example-host-info").
Proof.
  assert (∀ v responseBytes,
            Sample.json_Marshal v = Ok responseBytes → responseBytes ≠ EmptyString)
    as Hjson.
  { intros v responseBytes Hok Hempty. rewrite Hempty in Hok.
    unfold Sample.json_Marshal in Hok. discriminate Hok. }
  split; [exact Hjson|].
  exact (@envelope_exactly_one _ _ Sample.collaborators
           "ss://example-host-info" Hjson).
Defined.



Lemma provider_error_details_witness :
  Sample.yaml_Unmarshal_request (Sample.TrimSpace "{error: {message: out of service}}")
  = Ok {| parseTunnelConfigRequest.Transport := None;
          parseTunnelConfigRequest.Error := Some Sample.outOfService |}
  ∧ ∃ e, InvokeMethodResult.Error (Sample.run "{error: {message: out of service}}")
         = Some e
         ∧ platerrors.Details e = None.
Proof.
  split; [reflexivity|].
  destruct (@provider_error_details _ _ Sample.collaborators
              "{error: {message: out of service}}"
              {[ "error" := "{message: out of service}" ]}
              {| parseTunnelConfigRequest.Transport := None;
                 parseTunnelConfigRequest.Error := Some Sample.outOfService |}
              Sample.outOfService eq_refl eq_refl eq_refl eq_refl eq_refl)
    as (e & Hrun & _ & Hnone & _).
  exists e. split; [exact Hrun|]. exact (Hnone eq_refl).
Defined.

(** ** Concrete runs over the collaborators for the rarer paths *)

Lemma request_parse_failure_invalid_config_witness :
  Edge.yaml_Unmarshal_map (Sample.TrimSpace "{error: maintenance}")
  = Ok {[ "error" := "maintenance" ]}
  ∧ Edge.yaml_Unmarshal_request (Sample.TrimSpace "{error: maintenance}")
    = Err "string was used where mapping is expected"
  ∧ Edge.run "{error: maintenance}"
    = {| InvokeMethodResult.Value := EmptyString;
         InvokeMethodResult.Error :=
           Some {| platerrors.Code := platerrors.InvalidConfig;
                   platerrors.Message :=
                     "failed to parse: string was used where mapping is expected";
                   platerrors.Details := None |} |}.
Proof.
  split; [reflexivity|]. split; [reflexivity|].
  exact (proj1 (@request_parse_failure_invalid_config _ _ Edge.collaborators
                  "{error: maintenance}" {[ "error" := "maintenance" ]}
                  "string was used where mapping is expected"
                  eq_refl eq_refl eq_refl eq_refl)).
Defined.

Lemma json_failure_internal_error_witness :
  let client :=
    {| Client.sd := Sample.relay "1.2.3.4:8080";
       Client.pl := Sample.relay "1.2.3.4:8080" |} in
  "ss://example-host-info"
    ∈ downstream (@calls _ _ Edge.withFailingEncoder "ss://example-host-info")
  ∧ Sample.NewClient "ss://example-host-info" = ClientOk client
  ∧ Edge.failingEncoder
      (response "ss://example-host-info" (streamFirstHop client)
         (packetFirstHop client))
    = Err "unsupported value"
  ∧ platerrors.Code
      <$> InvokeMethodResult.Error
            (@doParseTunnelConfig _ _ Edge.withFailingEncoder
               "ss://example-host-info")
    = Some platerrors.InternalError.
Proof.
  intros client.
  assert ("ss://example-host-info"
            ∈ downstream (@calls _ _ Edge.withFailingEncoder
                            "ss://example-host-info")) as Hin
    by (vm_compute; constructor).
  split; [exact Hin|]. split; [reflexivity|]. split; [reflexivity|].
  rewrite (@json_failure_internal_error _ _ Edge.withFailingEncoder
             "ss://example-host-info" "ss://example-host-info" client
             "unsupported value" Hin eq_refl eq_refl).
  reflexivity.
Defined.


Lemma dialect_by_key_presence_witness :
  HasPrefix (Sample.TrimSpace "{host: x, port: 1}") "ss://" = false
  ∧ Sample.yaml_Unmarshal_map (Sample.TrimSpace "{host: x, port: 1}")
    = Ok {[ "host" := "x"; "port" := "1" ]}
  ∧ (CallYamlUnmarshalRequest (Sample.TrimSpace "{host: x, port: 1}")
       ∈ Sample.log "{host: x, port: 1}"
     ↔ "transport" ∈ dom ({[ "host" := "x"; "port" := "1" ]} : gmap string string)
       ∨ "error" ∈ dom ({[ "host" := "x"; "port" := "1" ]} : gmap string string)).
Proof.
  split; [reflexivity|]. split; [reflexivity|].
  exact (@dialect_by_key_presence _ _ Sample.collaborators "{host: x, port: 1}"
           {[ "host" := "x"; "port" := "1" ]} eq_refl eq_refl).
Defined.

Lemma null_error_block_structured_witness :
  Edge.yaml_Unmarshal_map (Sample.TrimSpace "{error: null}")
  = Ok {[ "error" := "null" ]}
  ∧ Edge.yaml_Unmarshal_request (Sample.TrimSpace "{error: null}")
    = Ok {| parseTunnelConfigRequest.Transport := None;
            parseTunnelConfigRequest.Error := None |}
  ∧ downstream (Edge.log "{error: null}") = ["null"].
Proof.
  split; [reflexivity|]. split; [reflexivity|].
  exact (proj2 (@null_error_block_structured _ _ Edge.collaborators
                  "{error: null}" {[ "error" := "null" ]}
                  {| parseTunnelConfigRequest.Transport := None;
                     parseTunnelConfigRequest.Error := None |}
                  eq_refl eq_refl eq_refl eq_refl eq_refl)).
Defined.
